(** * Matcher registration and dispatch of [packages/expect/src/jest-extend.ts]

    A shallow embedding of the adapter layer that turns matcher definitions
    into fluent assertion methods and asymmetric matchers, together with the
    built-in call-order matcher [toHaveBeenCalledBefore]. *)

From Stdlib Require Import ZArith.
From stdpp Require Import base strings list gmap pretty.

Set Warnings "-clear-no-such-hyp".

Local Open Scope Z_scope.
Local Open Scope string_scope.

(** ** JavaScript values *)

(** The values that reach this module.  A [VMock] is any value exposing
    [.mock.invocationCallOrder]; [VArray] is a [number[]]; [VObject] is an
    object without a [mock] property. *)
Inductive value : Type :=
  | VUndefined
  | VNull
  | VBool (b : bool)
  | VNumber (n : Z)
  | VString (s : string)
  | VArray (elems : list Z)
  | VObject
  | VMock (invocationCallOrder : list Z).

(** JavaScript truthiness, as used by [!x], [x && y] and [x || y]. *)
Definition truthy (v : value) : bool :=
  match v with
  | VUndefined | VNull => false
  | VBool b => b
  | VNumber n => negb (n =? 0)%Z
  | VString s => negb (String.eqb s "")
  | VArray _ | VObject | VMock _ => true
  end.

(** [x || y] on values. *)
Definition js_or (x y : value) : value := if truthy x then x else y.

(** Thrown values. *)
Inductive error : Type :=
  | TypeError
  | JestExtendError (message : string) (actual expected : value)
  | Thrown (v : value).

(** The outcome of running a function body. *)
Inductive completion (A : Type) : Type :=
  | Normal (a : A)
  | Throw (e : error).
Arguments Normal {A} a.
Arguments Throw {A} e.

(** A promise is represented by the way it eventually settles. *)
Inductive Promise (A : Type) : Type :=
  | Fulfilled (a : A)
  | Rejected (e : error)
  | Pending.
Arguments Fulfilled {A} a.
Arguments Rejected {A} e.
Arguments Pending {A}.

(** [p.then(onFulfilled)] for a callback that returns a plain value. *)
Definition then_ {A B : Type} (p : Promise A) (onFulfilled : A -> completion B)
  : Promise B :=
  match p with
  | Fulfilled a =>
      match onFulfilled a with
      | Normal b => Fulfilled b
      | Throw e => Rejected e
      end
  | Rejected e => Rejected e
  | Pending => Pending
  end.

(** Numbers as [Math.min] produces them: [Math.min()] is [Infinity]. *)
Inductive number : Type :=
  | Num (z : Z)
  | Infinity.

Definition number_min (x y : number) : number :=
  match x, y with
  | Num a, Num b => Num (Z.min a b)
  | Num a, Infinity => Num a
  | Infinity, _ => y
  end.

Definition number_lt (x y : number) : bool :=
  match x, y with
  | Num a, Num b => (a <? b)%Z
  | Num _, Infinity => true
  | Infinity, _ => false
  end.

(** [Math.min(...xs)]. *)
Definition Math_min (xs : list Z) : number :=
  foldr (fun x acc => number_min (Num x) acc) Infinity xs.

(** ** Strings *)

Definition nl : string := String (Ascii.ascii_of_nat 10) "".

(** [hay.includes(needle)]. *)
Fixpoint includes (needle hay : string) : bool :=
  String.prefix needle hay ||
  match hay with
  | EmptyString => false
  | String _ rest => includes needle rest
  end.

(** ** Verdicts and matcher state *)

Record SyncExpectationResult : Type := {
  pass : bool;
  message : unit -> string;
  actual : value;
  expected : value;
}.

Inductive ExpectationResult : Type :=
  | SyncResult (r : SyncExpectationResult)
  | AsyncResult (p : Promise SyncExpectationResult).

(** The part of [this.utils] that the built-in reads. *)
Record MatcherUtils : Type := {
  matcherHint : string -> string;
  printReceived : value -> string;
  printExpected : value -> string;
}.

Section JestExtend.

(** The ambient state of an entry point ([getState]), custom equality
    testers, the entry point object and chai's [utils] handle belong to
    other modules. *)
Context {State Tester ExpectStatic ChaiUtils : Type}.

Record MatcherState : Type := {
  ambient : State;
  customTesters : list Tester;
  isNot : value;
  utils : MatcherUtils;
  promise : value;
  soft : value;
  poll : value;
}.

(** A matcher as the adapters call it:
    [expectAssertion.call(state, subject, ...args)]. *)
Definition MatcherFn : Type :=
  MatcherState -> value -> list value -> completion ExpectationResult.

(** A live chai assertion: the subject and the flag store read by
    [util.flag]. *)
Record Assertion : Type := {
  _obj : value;
  flags : gmap string value;
}.

(** [util.flag(assertion, key)]: an unset flag reads as [undefined]. *)
Definition flag (assertion : Assertion) (key : string) : value :=
  default VUndefined (flags assertion !! key).

(** What a fluent method returns: nothing, or a promise of nothing. *)
Inductive FluentReturn : Type :=
  | Void
  | Deferred (p : Promise value).

Definition FluentFn : Type :=
  Assertion -> list value -> completion FluentReturn.

(** An instance of the [CustomMatcher] class that one registration creates.
    The first three fields are what the class closes over, the last two are
    what the [AsymmetricMatcher] constructor stores. *)
Record CustomMatcher : Type := {
  expectAssertionName : string;
  expectAssertion : MatcherFn;
  expect : ExpectStatic;
  sample : list value;
  inverse : bool;
}.

(** Functions of other modules that this one imports. *)
Class Imports : Type := {
  getState : ExpectStatic -> State;
  getCustomEqualityTesters : list Tester;
  getMatcherUtils : MatcherUtils;
  isJestMockOrSpy : value -> bool;
  wrapSoft : ChaiUtils -> FluentFn -> FluentFn;
  getMatcherContext : CustomMatcher -> ExpectStatic -> MatcherState;
  String_ : value -> string;
}.

Context {imports : Imports}.

(** ** The built-in call-order matcher *)

Definition predicate (firstInvocationCallOrder secondInvocationCallOrder : list Z)
    (failIfNoSecondInvocation : bool) : bool :=
  if (length firstInvocationCallOrder =? 0)%nat then false
  else if (length secondInvocationCallOrder =? 0)%nat
  then negb failIfNoSecondInvocation
  else
    let firstSmallest := Math_min firstInvocationCallOrder in
    let secondSmallest := Math_min secondInvocationCallOrder in
    number_lt firstSmallest secondSmallest.

(** [v.mock.invocationCallOrder]; a value without that record makes the
    property access throw. *)
Definition mock_invocationCallOrder (v : value) : completion (list Z) :=
  match v with
  | VMock order => Normal order
  | _ => Throw TypeError
  end.

(** The two wordings of the call-order message. *)
Definition message_was_called_before (this : MatcherState)
    (first second : list Z) : string :=
  matcherHint (utils this) ".not.toHaveBeenCalledBefore" +:+ nl +:+ nl +:+
  "Expected first mock to not have been called before second mock, but it was."
    +:+ nl +:+ nl +:+
  "First mock call order: " +:+ printExpected (utils this) (VArray first) +:+ nl +:+
  "Second mock call order: " +:+ printReceived (utils this) (VArray second).

Definition message_was_not_called_before (this : MatcherState)
    (first second : list Z) : string :=
  matcherHint (utils this) ".toHaveBeenCalledBefore" +:+ nl +:+ nl +:+
  "Expected first mock to have been called before second mock, but it was not."
    +:+ nl +:+ nl +:+
  "First mock call order: " +:+ printExpected (utils this) (VArray first) +:+ nl +:+
  "Second mock call order: " +:+ printReceived (utils this) (VArray second).

(** [failIfNoSecondInvocation = true]: the default applies to [undefined];
    [predicate] then negates the flag by its truthiness. *)
Definition toHaveBeenCalledBefore (this : MatcherState)
    (actual expected : value) (failIfNoSecondInvocation : value)
  : completion ExpectationResult :=
  let failIfNoSecondInvocation :=
    match failIfNoSecondInvocation with
    | VUndefined => VBool true
    | v => v
    end in
  if negb (isJestMockOrSpy actual) then
    Normal (SyncResult {|
      pass := false;
      message := fun _ =>
        matcherHint (utils this) ".toHaveBeenCalledBefore" +:+ nl +:+ nl +:+
        "Received value must be a mock or spy function" +:+ nl +:+ nl +:+
        "Received: " +:+ printReceived (utils this) actual;
      actual := VUndefined;
      expected := VUndefined |})
  else if negb (isJestMockOrSpy expected) then
    Normal (SyncResult {|
      pass := false;
      message := fun _ =>
        matcherHint (utils this) ".toHaveBeenCalledBefore" +:+ nl +:+ nl +:+
        "Expected value must be a mock or spy function" +:+ nl +:+ nl +:+
        "Expected: " +:+ printExpected (utils this) expected;
      actual := VUndefined;
      expected := VUndefined |})
  else
    match mock_invocationCallOrder actual with
    | Throw e => Throw e
    | Normal firstInvocationCallOrder =>
        match mock_invocationCallOrder expected with
        | Throw e => Throw e
        | Normal secondInvocationCallOrder =>
            let pass :=
              predicate firstInvocationCallOrder secondInvocationCallOrder
                (truthy failIfNoSecondInvocation) in
            Normal (SyncResult {|
              pass := pass;
              message := fun _ =>
                if pass
                then message_was_called_before this
                       firstInvocationCallOrder secondInvocationCallOrder
                else message_was_not_called_before this
                       firstInvocationCallOrder secondInvocationCallOrder;
              actual := VUndefined;
              expected := VUndefined |})
        end
    end.

(** The built-in as a registered matcher: the adapters pass the subject and
    then the call's arguments; a missing argument reads as [undefined]. *)
Definition toHaveBeenCalledBefore_matcher : MatcherFn :=
  fun this obj args =>
    toHaveBeenCalledBefore this obj
      (default VUndefined (args !! 0%nat)) (default VUndefined (args !! 1%nat)).

(** ** Matcher state of a fluent call *)

Record MatcherStateResult : Type := {
  ms_state : MatcherState;
  ms_isNot : value;
  ms_obj : value;
}.

(** The fields come from the live assertion; [utils] keeps what
    [getMatcherUtils()] provides under the three names the built-in reads. *)
Definition getMatcherState (assertion : Assertion) (expect : ExpectStatic)
  : MatcherStateResult :=
  let obj := _obj assertion in
  let isNot := flag assertion "negate" in
  let promise := js_or (flag assertion "promise") (VString "") in
  let jestUtils := getMatcherUtils in
  let matcherState := {|
    ambient := getState expect;
    customTesters := getCustomEqualityTesters;
    isNot := isNot;
    utils := jestUtils;
    promise := promise;
    soft := flag assertion "soft";
    poll := flag assertion "poll" |} in
  {| ms_state := matcherState; ms_isNot := isNot; ms_obj := obj |}.

(** ** Fluent dispatch adapter *)

(** [(pass && isNot) || (!pass && !isNot)], by truthiness. *)
Definition verdict_fails (pass : bool) (isNot : value) : bool :=
  (pass && truthy isNot) || (negb pass && negb (truthy isNot)).

Definition expectWrapper (expect : ExpectStatic) (expectAssertion : MatcherFn)
  : FluentFn :=
  fun this args =>
    let st := getMatcherState this expect in
    let isNot := ms_isNot st in
    match expectAssertion (ms_state st) (ms_obj st) args with
    | Throw e => Throw e
    | Normal (AsyncResult result) =>
        Normal (Deferred (then_ result (fun r =>
          if verdict_fails (pass r) isNot
          then Throw (JestExtendError (message r ()) (actual r) (expected r))
          else Normal VUndefined)))
    | Normal (SyncResult result) =>
        if verdict_fails (pass result) isNot
        then Throw (JestExtendError (message result ())
                      (actual result) (expected result))
        else Normal Void
    end.

(** ** Asymmetric matcher adapter *)

(** [const { pass } = result]: a promise has no [pass] property. *)
Definition get_pass (result : ExpectationResult) : value :=
  match result with
  | SyncResult r => VBool (pass r)
  | AsyncResult _ => VUndefined
  end.

Definition asymmetricMatch (this : CustomMatcher) (other : value)
  : completion value :=
  match expectAssertion this (getMatcherContext this (expect this))
          other (sample this) with
  | Throw e => Throw e
  | Normal result =>
      let pass := get_pass result in
      Normal (if inverse this then VBool (negb (truthy pass)) else pass)
  end.


Definition getExpectedType (this : CustomMatcher) : string := "any".

(** [xs.join(', ')]. *)
Fixpoint join (xs : list string) : string :=
  match xs with
  | [] => ""
  | [x] => x
  | x :: rest => x +:+ ", " +:+ join rest
  end.


(** A constructor function [(...sample) => new CustomMatcher(inverse, ...sample)]. *)
Definition AsymmetricCtor : Type := list value -> CustomMatcher.

Definition new_CustomMatcher (name : string) (matcher : MatcherFn)
    (entry : ExpectStatic) (inv : bool) : AsymmetricCtor :=
  fun smp =>
    {| expectAssertionName := name; expectAssertion := matcher;
       expect := entry; sample := smp; inverse := inv |}.

(** ** Registration *)

(** A JavaScript object used as a mapping: own properties in insertion
    order; assigning an existing key keeps its position. *)
Fixpoint obj_set {V : Type} (o : list (string * V)) (k : string) (v : V)
  : list (string * V) :=
  match o with
  | [] => [(k, v)]
  | (k', v') :: rest =>
      if String.eqb k' k then (k, v) :: rest else (k', v') :: obj_set rest k v
  end.

Fixpoint obj_get {V : Type} (o : list (string * V)) (k : string) : option V :=
  match o with
  | [] => None
  | (k', v') :: rest => if String.eqb k' k then Some v' else obj_get rest k
  end.

(** [{ ...source }] copied onto [target], one property at a time. *)
Definition spread {V : Type} (target source : list (string * V))
  : list (string * V) :=
  foldl (fun o kv => obj_set o kv.1 kv.2) target source.

(** The five objects that registration writes to: the two fluent surfaces,
    the entry point, its [not] object and the global asymmetric registry. *)
Record Registries : Type := {
  jest_matchers : gmap string FluentFn;
  assertion_prototype : gmap string FluentFn;
  expect_properties : gmap string AsymmetricCtor;
  expect_not_properties : gmap string AsymmetricCtor;
  asymmetric_matchers : gmap string AsymmetricCtor;
}.

(** chai's [utils.addMethod(ctx, name, method)] makes [method] the method
    [name] of [ctx]. *)
Definition addMethod (ctx : gmap string FluentFn) (name : string)
    (method : FluentFn) : gmap string FluentFn :=
  <[name := method]> ctx.

(** [Object.defineProperty(o, name, { value, writable, configurable, ... })]
    on an object whose properties can be redefined. *)
Definition defineProperty (o : gmap string AsymmetricCtor) (name : string)
    (v : AsymmetricCtor) : gmap string AsymmetricCtor :=
  <[name := v]> o.

(** The body of the [forEach] callback for one entry. *)
Definition install (entry : ExpectStatic) (chai_utils : ChaiUtils)
    (w : Registries) (kv : string * MatcherFn) : Registries :=
  let expectAssertionName := kv.1 in
  let expectAssertion := kv.2 in
  let softWrapper := wrapSoft chai_utils (expectWrapper entry expectAssertion) in
  let customMatcher :=
    new_CustomMatcher expectAssertionName expectAssertion entry false in
  {| jest_matchers := addMethod (jest_matchers w) expectAssertionName softWrapper;
     assertion_prototype :=
       addMethod (assertion_prototype w) expectAssertionName softWrapper;
     expect_properties :=
       defineProperty (expect_properties w) expectAssertionName customMatcher;
     expect_not_properties :=
       defineProperty (expect_not_properties w) expectAssertionName
         (new_CustomMatcher expectAssertionName expectAssertion entry true);
     asymmetric_matchers :=
       defineProperty (asymmetric_matchers w) expectAssertionName customMatcher |}.

(** [{ ...matchers, toHaveBeenCalledBefore }]. *)
Definition allMatchers (matchers : list (string * MatcherFn))
  : list (string * MatcherFn) :=
  obj_set (spread [] matchers) "toHaveBeenCalledBefore"
    toHaveBeenCalledBefore_matcher.

(** The plugin that [JestExtendPlugin(c, expect, matchers)] returns, run
    with chai's [utils] on the current registries. *)
Definition JestExtendPlugin (entry : ExpectStatic)
    (matchers : list (string * MatcherFn)) (chai_utils : ChaiUtils)
    (w : Registries) : Registries :=
  foldl (install entry chai_utils) w (allMatchers matchers).

(** [expect.extend(expect, expects)]: chai's [use] runs the plugin. *)
Definition extend (entry : ExpectStatic) (expects : list (string * MatcherFn))
    (chai_utils : ChaiUtils) (w : Registries) : Registries :=
  JestExtendPlugin entry expects chai_utils w.

End JestExtend.

(** ** A concrete environment

    Collaborators fixed to simple functions, used to run the definitions on
    concrete inputs. *)
Module Demo.

Definition render (v : value) : string :=
  match v with
  | VUndefined => "undefined"
  | VNull => "null"
  | VBool true => "true"
  | VBool false => "false"
  | VNumber n => pretty n
  | VString s => s
  | VArray elems => "[" +:+ join (pretty <$> elems) +:+ "]"
  | VObject => "{}"
  | VMock _ => "[Function mock]"
  end.

Definition demo_utils : MatcherUtils :=
  {| matcherHint := fun name => "expect(received)" +:+ name +:+ "(expected)";
     printReceived := render;
     printExpected := render |}.

Definition is_mock (v : value) : bool :=
  match v with
  | VMock _ => true
  | _ => false
  end.

(** A context builder in the shape of [getMatcherState], with the
    instance's [inverse] as negation state. *)
Definition demo_context (this : @CustomMatcher unit unit unit) (_ : unit)
  : @MatcherState unit unit :=
  {| ambient := (); customTesters := []; isNot := VBool (inverse this);
     utils := demo_utils; promise := VString ""; soft := VUndefined;
     poll := VUndefined |}.

#[export] Instance demo_imports : @Imports unit unit unit unit :=
  {| getState := fun _ => ();
     getCustomEqualityTesters := [];
     getMatcherUtils := demo_utils;
     isJestMockOrSpy := is_mock;
     wrapSoft := fun _ fn => fn;
     getMatcherContext := demo_context;
     String_ := render |}.

Definition empty_registries : @Registries unit unit unit :=
  {| jest_matchers := ∅; assertion_prototype := ∅; expect_properties := ∅;
     expect_not_properties := ∅; asymmetric_matchers := ∅ |}.

Definition verdict (p : bool) : SyncExpectationResult :=
  {| pass := p; message := fun _ => "custom"; actual := VNumber 1;
     expected := VNumber 2 |}.

(** A user matcher that passes on every input. *)
Definition always_pass : @MatcherFn unit unit :=
  fun _ _ _ => Normal (SyncResult (verdict true)).

(** A user matcher whose verdict resolves later. *)
Definition later_pass : @MatcherFn unit unit :=
  fun _ _ _ => Normal (AsyncResult (Fulfilled (verdict true))).

Definition assertion_on (obj : value) (negate : bool) : Assertion :=
  {| _obj := obj;
     flags := if negate then {[ "negate" := VBool true ]} else ∅ |}.

(** A user matcher whose verdict reads the negation state:
    [pass: !this.isNot]. *)
Definition pass_unless_negated : @MatcherFn unit unit :=
  fun this _ _ => Normal (SyncResult (verdict (negb (truthy (isNot this))))).

(** The matcher state of a plain, not negated fluent call. *)
Definition this0 : @MatcherState unit unit :=
  ms_state (getMatcherState (assertion_on VObject false) ()).

(** A matcher map whose only entry squats the built-in's name. *)
Definition squatting : list (string * @MatcherFn unit unit) :=
  [("toHaveBeenCalledBefore", always_pass)].

End Demo.

(** ** Vocabulary of the statements *)

(** [m] is the smallest element of [xs]. *)
Definition is_min (m : Z) (xs : list Z) : Prop :=
  m ∈ xs ∧ ∀ x, x ∈ xs → (m ≤ x)%Z.

(** The [pass] of a synchronously returned verdict. *)
Definition verdict_pass (c : completion ExpectationResult) : option bool :=
  match c with
  | Normal (SyncResult r) => Some (pass r)
  | _ => None
  end.

(** The flag that [toHaveBeenCalledBefore] works with, after its default. *)
Definition effective_flag (failIfNoSecondInvocation : value) : bool :=
  match failIfNoSecondInvocation with
  | VUndefined => true
  | v => truthy v
  end.

(** What registering the user's matcher [U] under the built-in's name would
    leave in the registries if the user's entry won. *)
Definition user_entry_installed {State Tester ExpectStatic ChaiUtils : Type}
    {imports : @Imports State Tester ExpectStatic ChaiUtils}
    (entry : ExpectStatic) (chai_utils : ChaiUtils) (U : MatcherFn)
    (w : Registries) : Prop :=
  let name := "toHaveBeenCalledBefore" in
  let fluent := wrapSoft chai_utils (expectWrapper entry U) in
  jest_matchers w !! name = Some fluent ∧
  assertion_prototype w !! name = Some fluent ∧
  expect_properties w !! name = Some (new_CustomMatcher name U entry false) ∧
  expect_not_properties w !! name = Some (new_CustomMatcher name U entry true) ∧
  asymmetric_matchers w !! name = Some (new_CustomMatcher name U entry false).

(** What one registry holds for [name] once the entries [es] are processed:
    the adapter of the entry with that name, or what it held before. *)
Definition after_install {V A : Type} (es : list (string * V))
    (name : string) (adapt : V → A) (before : option A) : option A :=
  match obj_get es name with
  | Some M => Some (adapt M)
  | None => before
  end.

(** ** Facts about strings *)

Lemma prefix_append (n s : string) : String.prefix n (n +:+ s) = true.
Proof.
  induction n as [|c n IH]; simpl.
  - by destruct s.
  - destruct (Ascii.ascii_dec c c); [exact IH | congruence].
Qed.

Lemma includes_prefix (n s : string) :
  String.prefix n s = true → includes n s = true.
Proof. intros H. destruct s; cbn [includes]; rewrite H; done. Qed.

Lemma includes_here (n s : string) : includes n (n +:+ s) = true.
Proof. apply includes_prefix, prefix_append. Qed.

Lemma includes_refl (n : string) : includes n n = true.
Proof.
  apply includes_prefix. induction n as [|c n IH]; [done |]. cbn.
  destruct (Ascii.ascii_dec c c); [exact IH | congruence].
Qed.

Lemma includes_append_r (n s1 s2 : string) :
  includes n s2 = true → includes n (s1 +:+ s2) = true.
Proof.
  intros H. induction s1 as [|c s1 IH]; [exact H |].
  change (String c s1 +:+ s2) with (String c (s1 +:+ s2)).
  cbn [includes]. rewrite IH. apply orb_true_r.
Qed.

Lemma length_append (s1 s2 : string) :
  String.length (s1 +:+ s2) = (String.length s1 + String.length s2)%nat.
Proof.
  induction s1 as [|c s1 IH]; [done |].
  change (String c s1 +:+ s2) with (String c (s1 +:+ s2)).
  cbn [String.length]. by rewrite IH.
Qed.

(** Two concatenations with tails of one length agree piece by piece. *)
Lemma append_inj_length (s1 s2 x y : string) :
  String.length x = String.length y →
  s1 +:+ x = s2 +:+ y → s1 = s2 ∧ x = y.
Proof.
  intros Hlen. revert s2.
  induction s1 as [|c s1 IH]; intros [|d s2] Heq.
  - done.
  - change ("" +:+ x) with x in Heq. subst x.
    rewrite length_append in Hlen. cbn [String.length] in Hlen. lia.
  - change ("" +:+ y) with y in Heq. subst y.
    rewrite length_append in Hlen. cbn [String.length] in Hlen. lia.
  - change (String c (s1 +:+ x) = String d (s2 +:+ y)) in Heq.
    injection Heq as -> Heq. destruct (IH _ Heq) as [-> ->]. done.
Qed.

(** Finds a needle that is one of the pieces of a concatenation. *)
Ltac find_piece :=
  repeat first
    [ apply includes_here
    | apply includes_refl
    | apply includes_append_r ].

(** ** Facts about [Math.min] and [predicate] *)

Lemma Math_min_cons (x : Z) (xs : list Z) :
  Math_min (x :: xs) = number_min (Num x) (Math_min xs).
Proof. reflexivity. Qed.

Lemma Math_min_is_min (xs : list Z) :
  xs ≠ [] → ∃ m, Math_min xs = Num m ∧ is_min m xs.
Proof.
  induction xs as [|x xs IH]; [done | intros _].
  rewrite Math_min_cons.
  destruct xs as [|y ys].
  - exists x. split; [done |]. split; [left |].
    intros z Hz. apply list_elem_of_singleton in Hz. lia.
  - destruct IH as (m & -> & Hin & Hle); [done |].
    exists (Z.min x m). split; [done |]. split.
    + destruct (Z.min_spec x m) as [[_ ->] | [_ ->]]; [left | by right].
    + intros z Hz. apply elem_of_cons in Hz as [-> | Hz]; [lia |].
      specialize (Hle z Hz). lia.
Qed.

Lemma is_min_unique (m n : Z) (xs : list Z) :
  is_min m xs → is_min n xs → m = n.
Proof.
  intros [Hm Hlm] [Hn Hln].
  specialize (Hlm n Hn). specialize (Hln m Hm). lia.
Qed.

Lemma predicate_nonempty (a b : list Z) (flag : bool) (m n : Z) :
  is_min m a → is_min n b → predicate a b flag = bool_decide (m < n)%Z.
Proof.
  intros Ha Hb. unfold predicate.
  destruct a as [|x a]; [by destruct Ha as [Hin _]; inversion Hin |].
  destruct b as [|y b]; [by destruct Hb as [Hin _]; inversion Hin |].
  cbn [length Nat.eqb].
  destruct (Math_min_is_min (x :: a)) as (m' & -> & Hm'); [done |].
  destruct (Math_min_is_min (y :: b)) as (n' & -> & Hn'); [done |].
  rewrite (is_min_unique _ _ _ Ha Hm'), (is_min_unique _ _ _ Hb Hn').
  cbn. destruct (Z.ltb_spec m' n'); symmetry.
  - by apply bool_decide_eq_true.
  - apply bool_decide_eq_false. lia.
Qed.

(** ** Objects used as mappings *)

Section Objects.

Context {V : Type}.

Implicit Types (o : list (string * V)) (k : string) (v : V).

Lemma obj_get_set_eq o k v : obj_get (obj_set o k v) k = Some v.
Proof.
  induction o as [|[k' v'] o IH]; cbn.
  - by rewrite String.eqb_refl.
  - destruct (String.eqb_spec k' k) as [-> | Hne]; cbn.
    + by rewrite String.eqb_refl.
    + by destruct (String.eqb_spec k' k).
Qed.

Lemma obj_get_set_ne o k k' v :
  k ≠ k' → obj_get (obj_set o k v) k' = obj_get o k'.
Proof.
  intros Hne. induction o as [|[k0 v0] o IH]; cbn.
  - by destruct (String.eqb_spec k k').
  - destruct (String.eqb_spec k0 k) as [-> | Hk0]; cbn.
    + by destruct (String.eqb_spec k k').
    + by rewrite IH.
Qed.

Lemma obj_set_keys o k v k' : k' ∈ (obj_set o k v).*1 ↔ k' = k ∨ k' ∈ o.*1.
Proof.
  induction o as [|[k0 v0] o IH]; cbn.
  - rewrite list_elem_of_singleton. set_solver.
  - destruct (String.eqb_spec k0 k) as [-> | Hk0]; cbn.
    + set_solver.
    + rewrite !elem_of_cons, IH. naive_solver.
Qed.

Lemma obj_set_NoDup o k v : NoDup o.*1 → NoDup (obj_set o k v).*1.
Proof.
  induction o as [|[k0 v0] o IH]; cbn; intros Hnd.
  - apply NoDup_singleton.
  - apply NoDup_cons in Hnd as [Hnotin Hnd].
    destruct (String.eqb_spec k0 k) as [-> | Hk0]; cbn.
    + by apply NoDup_cons.
    + apply NoDup_cons. split; [| by apply IH].
      rewrite obj_set_keys. naive_solver.
Qed.

Lemma spread_NoDup (target source : list (string * V)) :
  NoDup target.*1 → NoDup (spread target source).*1.
Proof.
  revert target. unfold spread.
  induction source as [|[k v] source IH]; intros target Hnd; [done |].
  cbn. apply IH. by apply obj_set_NoDup.
Qed.

Lemma obj_get_None o k : obj_get o k = None ↔ k ∉ o.*1.
Proof.
  induction o as [|[k0 v0] o IH]; cbn.
  - split; [intros _; apply not_elem_of_nil | done].
  - destruct (String.eqb_spec k0 k) as [-> | Hk0].
    + split; [done |]. intros Hn. exfalso. apply Hn. left.
    + rewrite IH, not_elem_of_cons. naive_solver.
Qed.

Lemma obj_get_take o k v (n : nat) :
  obj_get (take n o) k = Some v → obj_get o k = Some v.
Proof.
  revert n. induction o as [|[k0 v0] o IH]; intros [|n]; cbn; try done.
  destruct (String.eqb k0 k); [done | apply IH].
Qed.

End Objects.

Section Properties.

Context {State Tester ExpectStatic ChaiUtils : Type}.
Context {imports : @Imports State Tester ExpectStatic ChaiUtils}.

Implicit Types (this : @MatcherState State Tester).

(** The verdict of the built-in on two valid mocks. *)
Lemma toHaveBeenCalledBefore_valid this (a b : list Z) (flag : value) :
  isJestMockOrSpy (VMock a) = true →
  isJestMockOrSpy (VMock b) = true →
  ∃ r,
    toHaveBeenCalledBefore this (VMock a) (VMock b) flag = Normal (SyncResult r) ∧
    pass r = predicate a b (effective_flag flag).
Proof.
  intros Ha Hb. unfold toHaveBeenCalledBefore.
  rewrite Ha, Hb. cbn [negb mock_invocationCallOrder].
  eexists. split; [reflexivity |]. cbn [pass]. by destruct flag.
Qed.

(** C2. For two valid mocks with invocation orders [a] and [b], the built-in
    returns a verdict whose [pass] is false when [a] is empty, is the negation
    of the flag (true by default) when [a] is not empty and [b] is, and
    otherwise is true exactly when the smallest element of [a] is below the
    smallest element of [b].  So [1, 5] against [3] passes, [2] against [1]
    fails, and [1] against [] passes when the flag is false. *)
Theorem toHaveBeenCalledBefore_pass this (a b : list Z) (flag : value) :
  isJestMockOrSpy (VMock a) = true →
  isJestMockOrSpy (VMock b) = true →
  (∃ r,
    toHaveBeenCalledBefore this (VMock a) (VMock b) flag = Normal (SyncResult r) ∧
    (a = [] → pass r = false) ∧
    (a ≠ [] → b = [] → pass r = negb (effective_flag flag)) ∧
    (a ≠ [] → b ≠ [] →
       ∃ m n, is_min m a ∧ is_min n b ∧ (pass r = true ↔ (m < n)%Z))) ∧
  (a = [1; 5] → b = [3] →
     verdict_pass (toHaveBeenCalledBefore this (VMock a) (VMock b) flag)
       = Some true) ∧
  (a = [2] → b = [1] →
     verdict_pass (toHaveBeenCalledBefore this (VMock a) (VMock b) flag)
       = Some false) ∧
  (a = [1] → b = [] →
     verdict_pass (toHaveBeenCalledBefore this (VMock a) (VMock b) (VBool false))
       = Some true).
Proof.
  intros Ha Hb.
  destruct (toHaveBeenCalledBefore_valid this a b flag Ha Hb) as (r & Hr & Hp).
  destruct (toHaveBeenCalledBefore_valid this a b (VBool false) Ha Hb)
    as (r' & Hr' & Hp').
  rewrite Hr, Hr'. cbn [verdict_pass]. rewrite Hp, Hp'.
  split; [exists r; split; [done |]; rewrite Hp; split; [| split] |].
  - by intros ->.
  - intros Hne ->. by destruct a.
  - intros Hna Hnb.
    destruct (Math_min_is_min a Hna) as (m & _ & Hm).
    destruct (Math_min_is_min b Hnb) as (n & _ & Hn).
    exists m, n. split; [done |]. split; [done |].
    rewrite (predicate_nonempty a b _ m n Hm Hn).
    apply bool_decide_eq_true.
  - by repeat split; intros -> ->.
Qed.

(** C6. When the received value is not a mock or spy the verdict fails with
    a message that contains "Received value must be a mock or spy function";
    when the received value is one and the expected value is not, the verdict
    fails with a message that contains "Expected value must be a mock or spy
    function". *)
Theorem toHaveBeenCalledBefore_invalid_side this (actual expected flag : value) :
  (isJestMockOrSpy actual = false →
     ∃ r, toHaveBeenCalledBefore this actual expected flag = Normal (SyncResult r) ∧
          pass r = false ∧
          includes "Received value must be a mock or spy function"
            (message r ()) = true) ∧
  (isJestMockOrSpy actual = true → isJestMockOrSpy expected = false →
     ∃ r, toHaveBeenCalledBefore this actual expected flag = Normal (SyncResult r) ∧
          pass r = false ∧
          includes "Expected value must be a mock or spy function"
            (message r ()) = true).
Proof.
  split.
  - intros Ha. unfold toHaveBeenCalledBefore. rewrite Ha. cbn [negb].
    eexists. split; [reflexivity |]. split; [done |].
    cbn [message]. find_piece.
  - intros Ha He. unfold toHaveBeenCalledBefore. rewrite Ha, He. cbn [negb].
    eexists. split; [reflexivity |]. split; [done |].
    cbn [message]. find_piece.
Qed.

(** The decision rule, case by case. *)
Lemma verdict_fails_spec (p : bool) (isNot : value) :
  verdict_fails p isNot = true ↔
  (p = true ∧ truthy isNot = true) ∨ (p = false ∧ truthy isNot = false).
Proof.
  unfold verdict_fails.
  destruct p, (truthy isNot); cbn; intuition congruence.
Qed.

(** C1. When the matcher returns its verdict synchronously, the fluent
    adapter throws the structured failure carrying [message()], [actual] and
    [expected] exactly when [(pass && isNot) || (!pass && !isNot)], with
    [isNot] the assertion's negation flag, and returns nothing otherwise.  A
    passing verdict therefore succeeds in the positive form and fails in the
    negated form. *)
Theorem expectWrapper_sync (expect : ExpectStatic) (M : MatcherFn)
    (assertion : Assertion) (args : list value) (r : SyncExpectationResult) :
  M (ms_state (getMatcherState assertion expect)) (_obj assertion) args
    = Normal (SyncResult r) →
  let isNot := flag assertion "negate" in
  let failure := JestExtendError (message r ()) (actual r) (expected r) in
  (verdict_fails (pass r) isNot = true →
     expectWrapper expect M assertion args = Throw failure) ∧
  (verdict_fails (pass r) isNot = false →
     expectWrapper expect M assertion args = Normal Void) ∧
  (expectWrapper expect M assertion args = Throw failure ↔
     (pass r = true ∧ truthy isNot = true) ∨
     (pass r = false ∧ truthy isNot = false)) ∧
  (pass r = true → truthy isNot = false →
     expectWrapper expect M assertion args = Normal Void) ∧
  (pass r = true → truthy isNot = true →
     expectWrapper expect M assertion args = Throw failure).
Proof.
  intros HM isNot failure.
  assert (Hrun : expectWrapper expect M assertion args =
                 if verdict_fails (pass r) isNot then Throw failure
                 else Normal Void).
  { unfold expectWrapper. cbn [ms_state ms_obj ms_isNot getMatcherState] in *.
    by rewrite HM. }
  rewrite Hrun, <- verdict_fails_spec.
  repeat split.
  - by intros ->.
  - by intros ->.
  - by destruct (verdict_fails (pass r) isNot).
  - by intros ->.
  - intros Hp Hn. unfold verdict_fails. by rewrite Hp, Hn.
  - intros Hp Hn. unfold verdict_fails. by rewrite Hp, Hn.
Qed.

(** C8. When the matcher returns a promise of its verdict, the fluent
    adapter returns a promise.  That promise stays pending while the verdict
    is pending, rejects with the structured failure exactly when the settled
    verdict satisfies [(pass && isNot) || (!pass && !isNot)], and fulfils
    with nothing otherwise; a rejected verdict promise rejects it with the
    same error. *)
Theorem expectWrapper_async (expect : ExpectStatic) (M : MatcherFn)
    (assertion : Assertion) (args : list value)
    (p : Promise SyncExpectationResult) :
  M (ms_state (getMatcherState assertion expect)) (_obj assertion) args
    = Normal (AsyncResult p) →
  let isNot := flag assertion "negate" in
  ∃ d, expectWrapper expect M assertion args = Normal (Deferred d) ∧
    (p = Pending → d = Pending) ∧
    (∀ e, p = Rejected e → d = Rejected e) ∧
    (∀ r, p = Fulfilled r →
       let failure := JestExtendError (message r ()) (actual r) (expected r) in
       (verdict_fails (pass r) isNot = true → d = Rejected failure) ∧
       (verdict_fails (pass r) isNot = false → d = Fulfilled VUndefined) ∧
       (d = Rejected failure ↔
          (pass r = true ∧ truthy isNot = true) ∨
          (pass r = false ∧ truthy isNot = false))).
Proof.
  intros HM isNot. unfold expectWrapper.
  cbn [ms_state ms_obj ms_isNot getMatcherState] in *. rewrite HM.
  eexists. split; [reflexivity |].
  split; [by intros -> |]. split; [by intros e -> |].
  intros r Hp. subst p. cbn zeta. cbn [then_]. fold isNot.
  rewrite <- verdict_fails_spec.
  destruct (verdict_fails (pass r) isNot); repeat split; congruence.
Qed.

(** C5, as the code has it.  Each instance hands the matcher its own
    context, built from the instance itself.  With [pass] the verdict the
    matcher returns on that context, [asymmetricMatch] returns [pass] when
    [inverse] is false and [!pass] when it is true.  The result of the inverse
    instance is the negation of the result of the plain one exactly when the
    matcher reports the same [pass] to both instances. *)
Theorem asymmetricMatch_negation (name : string) (M : MatcherFn)
    (expect : ExpectStatic) (smp : list value) (other : value) (p : bool) :
  let plain := new_CustomMatcher name M expect false smp in
  let inverted := new_CustomMatcher name M expect true smp in
  (∀ r, M (getMatcherContext plain expect) other smp = Normal (SyncResult r) →
        asymmetricMatch plain other = Normal (VBool (pass r))) ∧
  (∀ r, M (getMatcherContext inverted expect) other smp = Normal (SyncResult r) →
        asymmetricMatch inverted other = Normal (VBool (negb (pass r)))) ∧
  (∀ r r',
     M (getMatcherContext plain expect) other smp = Normal (SyncResult r) →
     M (getMatcherContext inverted expect) other smp = Normal (SyncResult r') →
     pass r = p → pass r' = p →
     asymmetricMatch plain other = Normal (VBool p) ∧
     asymmetricMatch inverted other = Normal (VBool (negb p))) ∧
  (∀ r r',
     M (getMatcherContext plain expect) other smp = Normal (SyncResult r) →
     M (getMatcherContext inverted expect) other smp = Normal (SyncResult r') →
     ((∃ b, asymmetricMatch plain other = Normal (VBool b) ∧
            asymmetricMatch inverted other = Normal (VBool (negb b))) ↔
      pass r = pass r')).
Proof.
  intros plain inverted.
  assert (Hplain : ∀ r,
    M (getMatcherContext plain expect) other smp = Normal (SyncResult r) →
    asymmetricMatch plain other = Normal (VBool (pass r))).
  { intros r Hr. unfold asymmetricMatch. cbn. fold plain. by rewrite Hr. }
  assert (Hinv : ∀ r,
    M (getMatcherContext inverted expect) other smp = Normal (SyncResult r) →
    asymmetricMatch inverted other = Normal (VBool (negb (pass r)))).
  { intros r Hr. unfold asymmetricMatch. cbn. fold inverted. by rewrite Hr. }
  split; [exact Hplain |]. split; [exact Hinv |]. split.
  - intros r r' Hr Hr' <- Hp. split; [by apply Hplain |].
    rewrite <- Hp. by apply Hinv.
  - intros r r' Hr Hr'. rewrite (Hplain r Hr), (Hinv r' Hr'). split.
    + intros (b & [= Hb] & [= Hb']). rewrite Hb. by destruct (pass r'), b.
    + intros Heq. exists (pass r). by rewrite Heq.
Qed.

(** C10. When the matcher returns a promise to an asymmetric instance,
    [asymmetricMatch] throws nothing and does not look at the promise: the
    plain instance returns [undefined], which is falsy, and the inverse
    instance returns [true]. *)
Theorem asymmetricMatch_promise (this : CustomMatcher) (other : value)
    (p : Promise SyncExpectationResult) :
  expectAssertion this (getMatcherContext this (expect this)) other (sample this)
    = Normal (AsyncResult p) →
  ∃ result, asymmetricMatch this other = Normal result ∧
    (inverse this = false → result = VUndefined ∧ truthy result = false) ∧
    (inverse this = true → result = VBool true).
Proof.
  intros HM. unfold asymmetricMatch. rewrite HM. cbn [get_pass truthy negb].
  eexists. split; [reflexivity |].
  by split; intros ->.
Qed.

(** ** Registration *)

Lemma allMatchers_NoDup (matchers : list (string * MatcherFn)) :
  NoDup (allMatchers matchers).*1.
Proof. apply obj_set_NoDup, spread_NoDup, NoDup_nil_2. Qed.

Lemma allMatchers_builtin (matchers : list (string * MatcherFn)) :
  obj_get (allMatchers matchers) "toHaveBeenCalledBefore"
    = Some toHaveBeenCalledBefore_matcher.
Proof. apply obj_get_set_eq. Qed.

Lemma foldl_install_lookup (entry : ExpectStatic) (chai_utils : ChaiUtils)
    (es : list (string * MatcherFn)) (w : Registries) (name : string) :
  NoDup es.*1 →
  let w' := foldl (install entry chai_utils) w es in
  let fluent M := wrapSoft chai_utils (expectWrapper entry M) in
  jest_matchers w' !! name
    = after_install es name fluent (jest_matchers w !! name) ∧
  assertion_prototype w' !! name
    = after_install es name fluent (assertion_prototype w !! name) ∧
  expect_properties w' !! name
    = after_install es name (λ M, new_CustomMatcher name M entry false)
        (expect_properties w !! name) ∧
  expect_not_properties w' !! name
    = after_install es name (λ M, new_CustomMatcher name M entry true)
        (expect_not_properties w !! name) ∧
  asymmetric_matchers w' !! name
    = after_install es name (λ M, new_CustomMatcher name M entry false)
        (asymmetric_matchers w !! name).
Proof.
  revert w. induction es as [|[k M] es IH]; intros w Hnd; [done |].
  cbn [fmap list_fmap] in Hnd. apply NoDup_cons in Hnd as [Hk Hnd].
  cbn [fst] in Hk.
  cbn [foldl]. cbn zeta in *.
  destruct (IH (install entry chai_utils w (k, M)) Hnd)
    as (H1 & H2 & H3 & H4 & H5).
  rewrite H1, H2, H3, H4, H5. clear IH H1 H2 H3 H4 H5.
  unfold after_install. cbn [obj_get].
  destruct (String.eqb_spec k name) as [-> | Hne].
  - apply obj_get_None in Hk. rewrite Hk.
    cbn [install jest_matchers assertion_prototype expect_properties
         expect_not_properties asymmetric_matchers fst snd].
    unfold addMethod, defineProperty. by rewrite !lookup_insert_eq.
  - destruct (obj_get es name); [done |].
    cbn [install jest_matchers assertion_prototype expect_properties
         expect_not_properties asymmetric_matchers fst snd].
    unfold addMethod, defineProperty. by rewrite !lookup_insert_ne.
Qed.

(** C3, as the code has it.  Whatever the matcher map holds, registration
    leaves the built-in under the name [toHaveBeenCalledBefore] in every
    registry: the built-in is written into the merged mapping after the
    user's entries, so it is the one that wins. *)
Theorem extend_builtin_wins (entry : ExpectStatic)
    (matchers : list (string * MatcherFn)) (chai_utils : ChaiUtils)
    (w : Registries) :
  let name := "toHaveBeenCalledBefore" in
  let w' := extend entry matchers chai_utils w in
  let fluent :=
    wrapSoft chai_utils (expectWrapper entry toHaveBeenCalledBefore_matcher) in
  jest_matchers w' !! name = Some fluent ∧
  assertion_prototype w' !! name = Some fluent ∧
  expect_properties w' !! name
    = Some (new_CustomMatcher name toHaveBeenCalledBefore_matcher entry false) ∧
  expect_not_properties w' !! name
    = Some (new_CustomMatcher name toHaveBeenCalledBefore_matcher entry true) ∧
  asymmetric_matchers w' !! name
    = Some (new_CustomMatcher name toHaveBeenCalledBefore_matcher entry false).
Proof.
  cbn zeta. unfold extend, JestExtendPlugin.
  pose proof (foldl_install_lookup entry chai_utils (allMatchers matchers) w
                "toHaveBeenCalledBefore" (allMatchers_NoDup matchers)) as H.
  cbn zeta in H. unfold after_install in H.
  by rewrite allMatchers_builtin in H.
Qed.

(** C4. Once registration has run, every name of the merged mapping is
    present in the assertion prototype, the global fluent registry and the
    global asymmetric registry, and a name outside the merged mapping is left
    as it was in each of them. *)
Theorem extend_registries_agree (entry : ExpectStatic)
    (matchers : list (string * MatcherFn)) (chai_utils : ChaiUtils)
    (w : Registries) (name : string) :
  let w' := extend entry matchers chai_utils w in
  (name ∈ (allMatchers matchers).*1 →
     is_Some (assertion_prototype w' !! name) ∧
     is_Some (jest_matchers w' !! name) ∧
     is_Some (asymmetric_matchers w' !! name)) ∧
  (name ∉ (allMatchers matchers).*1 →
     assertion_prototype w' !! name = assertion_prototype w !! name ∧
     jest_matchers w' !! name = jest_matchers w !! name ∧
     asymmetric_matchers w' !! name = asymmetric_matchers w !! name).
Proof.
  cbn zeta. unfold extend, JestExtendPlugin.
  destruct (foldl_install_lookup entry chai_utils (allMatchers matchers) w
              name (allMatchers_NoDup matchers)) as (H1 & H2 & _ & _ & H5).
  rewrite H1, H2, H5. unfold after_install. split.
  - intros Hin. destruct (obj_get (allMatchers matchers) name) eqn:Hget;
      [by eauto |].
    by apply obj_get_None in Hget.
  - intros Hnotin. apply obj_get_None in Hnotin. by rewrite Hnotin.
Qed.

(** C7. For every name of the merged mapping, both fluent surfaces end up
    holding the same function, the soft-wrapped adapter of that name's
    matcher.  At every point of the registration, after any number of names
    have been processed, a fluent entry is either the one that was there before
    or the soft-wrapped adapter of a matcher of the merged mapping. *)
Theorem extend_installs_soft_wrapped (entry : ExpectStatic)
    (matchers : list (string * MatcherFn)) (chai_utils : ChaiUtils)
    (w : Registries) (name : string) :
  let w' := extend entry matchers chai_utils w in
  let fluent M := wrapSoft chai_utils (expectWrapper entry M) in
  (∀ M, obj_get (allMatchers matchers) name = Some M →
     jest_matchers w' !! name = Some (fluent M) ∧
     assertion_prototype w' !! name = Some (fluent M)) ∧
  (∀ (processed : nat) f,
     let w_mid :=
       foldl (install entry chai_utils) w (take processed (allMatchers matchers)) in
     (jest_matchers w_mid !! name = Some f →
        jest_matchers w !! name = Some f ∨
        ∃ M, obj_get (allMatchers matchers) name = Some M ∧ f = fluent M) ∧
     (assertion_prototype w_mid !! name = Some f →
        assertion_prototype w !! name = Some f ∨
        ∃ M, obj_get (allMatchers matchers) name = Some M ∧ f = fluent M)).
Proof.
  cbn zeta. split.
  - intros M HM. unfold extend, JestExtendPlugin.
    destruct (foldl_install_lookup entry chai_utils (allMatchers matchers) w
                name (allMatchers_NoDup matchers)) as (H1 & H2 & _).
    rewrite H1, H2. unfold after_install. by rewrite HM.
  - intros processed f.
    assert (Hnd : NoDup (take processed (allMatchers matchers)).*1).
    { rewrite fmap_take.
      eapply sublist_NoDup; [apply allMatchers_NoDup | apply sublist_take]. }
    destruct (foldl_install_lookup entry chai_utils
                (take processed (allMatchers matchers)) w name Hnd)
      as (H1 & H2 & _).
    rewrite H1, H2. unfold after_install.
    destruct (obj_get (take processed (allMatchers matchers)) name) as [M|]
      eqn:Hget.
    + apply obj_get_take in Hget.
      split; intros [= <-]; right; by exists M.
    + split; intros Hf; by left.
Qed.

(** ** Wording of the call-order message *)

Lemma call_order_messages_differ this (a b : list Z) :
  message_was_called_before this a b ≠ message_was_not_called_before this a b.
Proof.
  unfold message_was_called_before, message_was_not_called_before.
  intros Heq. apply append_inj_length in Heq as [_ Heq].
  - vm_compute in Heq. discriminate Heq.
  - rewrite !length_append. reflexivity.
Qed.

Lemma verdict_fails_pass (p : bool) (isNot : value) :
  verdict_fails p isNot = true → p = truthy isNot.
Proof. unfold verdict_fails. by destruct p, (truthy isNot). Qed.

(** C9. For two valid mocks the message of the verdict contains the
    rendering of both invocation orders.  When the fluent adapter throws, the
    failure carries the "not have been called before" message exactly when
    the assertion is negated and the "have been called before ... but it was
    not" message exactly when it is not. *)
Theorem toHaveBeenCalledBefore_message_wording (entry : ExpectStatic)
    (assertion : Assertion) (a b : list Z) (rest : list value) :
  _obj assertion = VMock a →
  isJestMockOrSpy (VMock a) = true →
  isJestMockOrSpy (VMock b) = true →
  let this := ms_state (getMatcherState assertion entry) in
  let isNot := flag assertion "negate" in
  let negated_text :=
    "Expected first mock to not have been called before second mock, but it was." in
  let plain_text :=
    "Expected first mock to have been called before second mock, but it was not." in
  (∃ r, toHaveBeenCalledBefore_matcher this (VMock a) (VMock b :: rest)
          = Normal (SyncResult r) ∧
        includes (printExpected (utils this) (VArray a)) (message r ()) = true ∧
        includes (printReceived (utils this) (VArray b)) (message r ()) = true) ∧
  (∀ e, expectWrapper entry toHaveBeenCalledBefore_matcher assertion
          (VMock b :: rest) = Throw e →
        ∃ msg, e = JestExtendError msg VUndefined VUndefined ∧
          (msg = message_was_called_before this a b ↔ truthy isNot = true) ∧
          (msg = message_was_not_called_before this a b ↔ truthy isNot = false) ∧
          (truthy isNot = true → includes negated_text msg = true) ∧
          (truthy isNot = false → includes plain_text msg = true)).
Proof.
  intros Hobj Ha Hb this isNot negated_text plain_text.
  assert (Hrun : toHaveBeenCalledBefore_matcher this (VMock a) (VMock b :: rest)
    = Normal (SyncResult {|
        pass := predicate a b (effective_flag (default VUndefined (rest !! 0%nat)));
        message := fun _ =>
          if predicate a b (effective_flag (default VUndefined (rest !! 0%nat)))
          then message_was_called_before this a b
          else message_was_not_called_before this a b;
        actual := VUndefined; expected := VUndefined |})).
  { unfold toHaveBeenCalledBefore_matcher.
    change (default VUndefined ((VMock b :: rest) !! 0%nat)) with (VMock b).
    change (default VUndefined ((VMock b :: rest) !! 1%nat))
      with (default VUndefined (rest !! 0%nat)).
    unfold toHaveBeenCalledBefore. rewrite Ha, Hb.
    cbn [negb mock_invocationCallOrder].
    by destruct (default VUndefined (rest !! 0%nat)). }
  split.
  - eexists. split; [exact Hrun |]. cbn [message].
    destruct (predicate a b _);
      unfold message_was_called_before, message_was_not_called_before;
      split; find_piece.
  - intros e. unfold expectWrapper. cbn zeta.
    change (ms_obj (getMatcherState assertion entry)) with (_obj assertion).
    change (ms_isNot (getMatcherState assertion entry)) with isNot.
    fold this. rewrite Hobj, Hrun. cbn [pass message actual expected].
    destruct (verdict_fails _ isNot) eqn:Hfail; [| done].
    apply verdict_fails_pass in Hfail. rewrite Hfail.
    intros [= <-]. eexists. split; [reflexivity |].
    pose proof (call_order_messages_differ this a b) as Hne.
    destruct (truthy isNot).
    + repeat split; try done.
      intros _. unfold message_was_called_before, negated_text. find_piece.
    + repeat split; try done; try congruence.
      intros _. unfold message_was_not_called_before, plain_text. find_piece.
Qed.

End Properties.

(** ** Further properties of the call-order predicate *)

Lemma predicate_cases (a b : list Z) (flag : bool) :
  predicate a b flag =
  match a, b with
  | [], _ => false
  | _ :: _, [] => negb flag
  | _ :: _, _ :: _ => number_lt (Math_min a) (Math_min b)
  end.
Proof. by destruct a, b. Qed.

Lemma Math_min_same_elements (a a' : list Z) :
  (∀ x, x ∈ a ↔ x ∈ a') → Math_min a = Math_min a'.
Proof.
  intros Hsame. destruct a as [|x a].
  - destruct a' as [|y a']; [done |].
    exfalso. eapply not_elem_of_nil. apply Hsame. left.
  - destruct a' as [|y a'].
    { exfalso. eapply not_elem_of_nil. apply Hsame. left. }
    destruct (Math_min_is_min (x :: a)) as (m & -> & Hin & Hle); [done |].
    destruct (Math_min_is_min (y :: a')) as (m' & -> & Hm'); [done |].
    f_equal. apply (is_min_unique _ _ (y :: a')); [| done].
    split; [by apply Hsame |]. intros z Hz. apply Hle. by apply Hsame.
Qed.

(** X1. The verdict depends on the invocation orders only through the numbers
    they hold: their order and repetitions do not matter. *)
Theorem predicate_same_elements (a a' b b' : list Z) (flag : bool) :
  (∀ x, x ∈ a ↔ x ∈ a') →
  (∀ x, x ∈ b ↔ x ∈ b') →
  predicate a b flag = predicate a' b' flag.
Proof.
  intros Ha Hb. rewrite !predicate_cases.
  rewrite <- (Math_min_same_elements a a' Ha), <- (Math_min_same_elements b b' Hb).
  assert (Hnil : ∀ l l' : list Z, (∀ x, x ∈ l ↔ x ∈ l') → l = [] → l' = []).
  { intros l l' Hl ->. destruct l' as [|z l']; [done |].
    exfalso. eapply not_elem_of_nil. apply Hl. left. }
  destruct a as [|x a], a' as [|x' a']; try done.
  - by specialize (Hnil _ _ Ha eq_refl).
  - assert (Hsym : ∀ z : Z, z ∈ [] ↔ z ∈ x :: a) by (intros z; by rewrite Ha).
    by specialize (Hnil _ _ Hsym eq_refl).
  - destruct b as [|y b], b' as [|y' b']; try done.
    + by specialize (Hnil _ _ Hb eq_refl).
    + assert (Hsym : ∀ z : Z, z ∈ [] ↔ z ∈ y :: b) by (intros z; by rewrite Hb).
      by specialize (Hnil _ _ Hsym eq_refl).
Qed.

(** X2. The two orders exclude each other: when the first mock counts as called
    before the second, the second never counts as called before the first,
    whatever the flags. *)
Theorem predicate_asymmetric (a b : list Z) (flag flag' : bool) :
  predicate a b flag = true → predicate b a flag' = false.
Proof.
  rewrite !predicate_cases. destruct a as [|x a]; [done |].
  destruct b as [|y b]; [done |].
  destruct (Math_min_is_min (x :: a)) as (m & -> & _); [done |].
  destruct (Math_min_is_min (y :: b)) as (n & -> & _); [done |].
  cbn. intros Hlt%Z.ltb_lt. apply Z.ltb_ge. lia.
Qed.

(** X3. Calls recorded later, whose numbers are not below one already recorded,
    do not change the verdict once both mocks have been called. *)
Theorem predicate_later_calls (a a' b b' : list Z) (flag : bool) :
  a ≠ [] → b ≠ [] →
  (∀ y, y ∈ a' → ∃ x, x ∈ a ∧ (x ≤ y)%Z) →
  (∀ y, y ∈ b' → ∃ x, x ∈ b ∧ (x ≤ y)%Z) →
  predicate (a ++ a') (b ++ b') flag = predicate a b flag.
Proof.
  intros Ha Hb Hlate_a Hlate_b.
  assert (Hmin : ∀ l l' : list Z, l ≠ [] →
            (∀ y, y ∈ l' → ∃ x, x ∈ l ∧ (x ≤ y)%Z) →
            Math_min (l ++ l') = Math_min l).
  { intros l l' Hl Hlate.
    destruct (Math_min_is_min l Hl) as (m & -> & Hin & Hle).
    destruct (Math_min_is_min (l ++ l')) as (m' & -> & Hm').
    { by destruct l. }
    f_equal. apply (is_min_unique _ _ (l ++ l')); [done |].
    split; [apply elem_of_app; by left |].
    intros z [Hz | Hz]%elem_of_app; [by apply Hle |].
    destruct (Hlate z Hz) as (x & Hx & Hxz). specialize (Hle x Hx). lia. }
  rewrite !predicate_cases, (Hmin a a' Ha Hlate_a), (Hmin b b' Hb Hlate_b).
  destruct a as [|x a]; [done |]. by destruct b as [|y b].
Qed.

(** The flag decides nothing once the second mock has been called. *)
Lemma predicate_flag_irrelevant (a b : list Z) (flag flag' : bool) :
  b ≠ [] → predicate a b flag = predicate a b flag'.
Proof. intros Hb. rewrite !predicate_cases. by destruct a, b. Qed.

(** ** Further properties of the built-in and the adapters *)

Section Consequences.

Context {State Tester ExpectStatic ChaiUtils : Type}.
Context {imports : @Imports State Tester ExpectStatic ChaiUtils}.

Implicit Types (this : @MatcherState State Tester).

(** What the fluent adapter does with a synchronous verdict. *)
Lemma expectWrapper_sync_run (entry : ExpectStatic) (M : MatcherFn)
    (assertion : Assertion) (args : list value) (r : SyncExpectationResult) :
  M (ms_state (getMatcherState assertion entry)) (_obj assertion) args
    = Normal (SyncResult r) →
  expectWrapper entry M assertion args =
  if verdict_fails (pass r) (flag assertion "negate")
  then Throw (JestExtendError (message r ()) (actual r) (expected r))
  else Normal Void.
Proof.
  intros HM. unfold expectWrapper.
  cbn [ms_state ms_obj ms_isNot getMatcherState] in *. by rewrite HM.
Qed.

(** The built-in reads its state for the message only: two states give the
    same [pass], or the same thrown error. *)
Lemma toHaveBeenCalledBefore_context this this' (actual expected flag : value) :
  match toHaveBeenCalledBefore this actual expected flag,
        toHaveBeenCalledBefore this' actual expected flag with
  | Normal (SyncResult r), Normal (SyncResult r') => pass r = pass r'
  | Throw e, Throw e' => e = e'
  | _, _ => False
  end.
Proof.
  unfold toHaveBeenCalledBefore.
  destruct (isJestMockOrSpy actual); cbn [negb]; [| done].
  destruct (isJestMockOrSpy expected); cbn [negb]; [| done].
  destruct (mock_invocationCallOrder actual); [| done].
  by destruct (mock_invocationCallOrder expected).
Qed.

(** X4. A mock never counts as called before itself: comparing a valid mock
    with itself gives a failing verdict, whatever its calls and the flag. *)
Theorem toHaveBeenCalledBefore_self this (a : list Z) (flag : value) :
  isJestMockOrSpy (VMock a) = true →
  verdict_pass (toHaveBeenCalledBefore this (VMock a) (VMock a) flag) = Some false.
Proof.
  intros Ha.
  destruct (toHaveBeenCalledBefore_valid this a a flag Ha Ha) as (r & -> & Hp).
  cbn [verdict_pass]. rewrite Hp, predicate_cases. destruct a as [|x a]; [done |].
  destruct (Math_min_is_min (x :: a)) as (m & -> & _); [done |].
  cbn. by rewrite Z.ltb_irrefl.
Qed.

(** X6. For two valid mocks exactly one of the positive and the negated fluent
    assertion fails: one returns nothing and the other throws the structured
    failure. *)
Theorem fluent_call_order_exactly_one (entry : ExpectStatic)
    (positive negated : Assertion) (a b : list Z) (rest : list value) :
  _obj positive = VMock a → _obj negated = VMock a →
  truthy (flag positive "negate") = false →
  truthy (flag negated "negate") = true →
  isJestMockOrSpy (VMock a) = true →
  isJestMockOrSpy (VMock b) = true →
  let run assertion :=
    expectWrapper entry toHaveBeenCalledBefore_matcher assertion (VMock b :: rest) in
  (run positive = Normal Void ∧
     ∃ msg, run negated = Throw (JestExtendError msg VUndefined VUndefined)) ∨
  (run negated = Normal Void ∧
     ∃ msg, run positive = Throw (JestExtendError msg VUndefined VUndefined)).
Proof.
  intros Hpos Hneg Hplain Hnot Ha Hb run.
  assert (Hrun : ∀ assertion, _obj assertion = VMock a →
    ∃ msg, run assertion =
      if verdict_fails
           (predicate a b (effective_flag (default VUndefined (rest !! 0%nat))))
           (flag assertion "negate")
      then Throw (JestExtendError msg VUndefined VUndefined) else Normal Void).
  { intros assertion Hobj.
    destruct (toHaveBeenCalledBefore_valid
                (ms_state (getMatcherState assertion entry)) a b
                (default VUndefined (rest !! 0%nat)) Ha Hb) as (r & Hr & Hp).
    exists (message r ()). unfold run.
    rewrite (expectWrapper_sync_run entry _ assertion _ r).
    - rewrite Hp. destruct (verdict_fails _ _); [| done].
      unfold toHaveBeenCalledBefore in Hr. rewrite Ha, Hb in Hr.
      cbn [negb mock_invocationCallOrder] in Hr. by injection Hr as <-.
    - rewrite Hobj. exact Hr. }
  destruct (Hrun positive Hpos) as (msg_pos & Hrun_pos).
  destruct (Hrun negated Hneg) as (msg_neg & Hrun_neg).
  rewrite Hrun_pos, Hrun_neg. unfold verdict_fails. rewrite Hplain, Hnot.
  destruct (predicate a b _); cbn; [left | right]; eauto.
Qed.

(** X7. When the subject is not a mock or spy, the positive fluent assertion
    throws the failure that names the received value, and the negated one
    returns without failing. *)
Theorem fluent_call_order_invalid_subject (entry : ExpectStatic)
    (assertion : Assertion) (args : list value) :
  isJestMockOrSpy (_obj assertion) = false →
  let run := expectWrapper entry toHaveBeenCalledBefore_matcher assertion args in
  (truthy (flag assertion "negate") = true → run = Normal Void) ∧
  (truthy (flag assertion "negate") = false →
     ∃ msg, run = Throw (JestExtendError msg VUndefined VUndefined) ∧
            includes "Received value must be a mock or spy function" msg = true).
Proof.
  intros Hobj run. unfold run, expectWrapper, toHaveBeenCalledBefore_matcher.
  cbn [ms_state ms_obj ms_isNot getMatcherState].
  unfold toHaveBeenCalledBefore. rewrite Hobj.
  cbn [negb pass message actual expected]. unfold verdict_fails. split.
  - by intros ->.
  - intros ->. cbn. eexists. split; [reflexivity |]. find_piece.
Qed.

(** X8. For the built-in the two asymmetric instances of one sample always
    disagree: either both throw the same error, or the inverse instance
    returns the negation of what the plain one returns, whatever context each
    of them is given. *)
Theorem asymmetric_call_order_negation (name : string) (entry : ExpectStatic)
    (smp : list value) (other : value) :
  let plain :=
    new_CustomMatcher name toHaveBeenCalledBefore_matcher entry false smp in
  let inverted :=
    new_CustomMatcher name toHaveBeenCalledBefore_matcher entry true smp in
  (∃ p, asymmetricMatch plain other = Normal (VBool p) ∧
        asymmetricMatch inverted other = Normal (VBool (negb p))) ∨
  (∃ e, asymmetricMatch plain other = Throw e ∧
        asymmetricMatch inverted other = Throw e).
Proof.
  intros plain inverted. unfold asymmetricMatch.
  cbn [expectAssertion expect sample inverse plain inverted new_CustomMatcher].
  fold plain inverted. unfold toHaveBeenCalledBefore_matcher.
  pose proof (toHaveBeenCalledBefore_context
                (getMatcherContext plain entry) (getMatcherContext inverted entry)
                other (default VUndefined (smp !! 0%nat))
                (default VUndefined (smp !! 1%nat))) as Hctx.
  destruct (toHaveBeenCalledBefore (getMatcherContext plain entry) _ _ _)
    as [[r | pr] | e];
    destruct (toHaveBeenCalledBefore (getMatcherContext inverted entry) _ _ _)
    as [[r' | pr'] | e']; try done.
  - left. exists (pass r). cbn. by rewrite Hctx.
  - right. exists e. by subst e'.
Qed.

(** X11. The state handed to the matcher carries the negation the adapter decides
    with: a matcher that passes exactly when [this.isNot] is falsy never fails
    through the fluent adapter, and one that passes exactly when it is truthy
    always does. *)
Theorem expectWrapper_isNot_consistent (entry : ExpectStatic) (M : MatcherFn)
    (assertion : Assertion) (args : list value) (r : SyncExpectationResult) :
  M (ms_state (getMatcherState assertion entry)) (_obj assertion) args
    = Normal (SyncResult r) →
  let this := ms_state (getMatcherState assertion entry) in
  (pass r = negb (truthy (isNot this)) →
     expectWrapper entry M assertion args = Normal Void) ∧
  (pass r = truthy (isNot this) →
     expectWrapper entry M assertion args
       = Throw (JestExtendError (message r ()) (actual r) (expected r))).
Proof.
  intros HM this. rewrite (expectWrapper_sync_run entry M assertion args r HM).
  cbn [this isNot ms_state getMatcherState]. unfold verdict_fails.
  split; intros ->; by destruct (truthy (flag assertion "negate")).
Qed.

(** X5. Once the second mock has been called, the third argument of the
    built-in decides nothing: any two values of it, omitted or not, give the
    same [pass]. *)
Theorem toHaveBeenCalledBefore_flag_irrelevant this this' (a b : list Z)
    (flag flag' : value) :
  isJestMockOrSpy (VMock a) = true →
  isJestMockOrSpy (VMock b) = true →
  b ≠ [] →
  ∃ p, verdict_pass (toHaveBeenCalledBefore this (VMock a) (VMock b) flag)
         = Some p ∧
       verdict_pass (toHaveBeenCalledBefore this' (VMock a) (VMock b) flag')
         = Some p.
Proof.
  intros Ha Hb Hne.
  destruct (toHaveBeenCalledBefore_valid this a b flag Ha Hb) as (r & -> & Hp).
  destruct (toHaveBeenCalledBefore_valid this' a b flag' Ha Hb)
    as (r' & -> & Hp').
  exists (pass r). cbn [verdict_pass]. split; [done |].
  by rewrite Hp, Hp', (predicate_flag_irrelevant a b _ (effective_flag flag) Hne).
Qed.

End Consequences.

(** ** Further properties of registration *)


Section MergedMapping.

Context {V : Type}.

Implicit Types (o : list (string * V)) (k : string) (v : V).

Lemma obj_set_fresh o k v : k ∉ o.*1 → obj_set o k v = (o ++ [(k, v)])%list.
Proof.
  induction o as [|[k0 v0] o IH]; cbn; [done |].
  intros [Hne Hnotin]%not_elem_of_cons.
  destruct (String.eqb_spec k0 k) as [-> | _]; [done |]. by rewrite IH.
Qed.

Lemma obj_set_present o k v : k ∈ o.*1 → (obj_set o k v).*1 = o.*1.
Proof.
  induction o as [|[k0 v0] o IH]; cbn; [by intros ?%elem_of_nil |].
  destruct (String.eqb_spec k0 k) as [-> | Hne]; [done |].
  intros [-> | Hin]%elem_of_cons; [done |]. cbn. by rewrite IH.
Qed.

Lemma spread_fresh (target source : list (string * V)) :
  NoDup ((target ++ source)%list).*1 →
  spread target source = (target ++ source)%list.
Proof.
  revert target. unfold spread.
  induction source as [|[k v] source IH]; intros target Hnd.
  - by rewrite app_nil_r.
  - cbn [foldl fst snd].
    assert (Hfresh : k ∉ target.*1).
    { rewrite fmap_app in Hnd. apply NoDup_app in Hnd as (_ & Hdisj & _).
      intros Hin. apply (Hdisj k Hin). left. }
    rewrite (obj_set_fresh target k v Hfresh), IH.
    + by rewrite <- app_assoc.
    + by rewrite <- app_assoc.
Qed.



End MergedMapping.

Section Registration.

Context {State Tester ExpectStatic ChaiUtils : Type}.
Context {imports : @Imports State Tester ExpectStatic ChaiUtils}.

Lemma registries_eq (w1 w2 : @Registries State Tester ExpectStatic) :
  (∀ name,
     jest_matchers w1 !! name = jest_matchers w2 !! name ∧
     assertion_prototype w1 !! name = assertion_prototype w2 !! name ∧
     expect_properties w1 !! name = expect_properties w2 !! name ∧
     expect_not_properties w1 !! name = expect_not_properties w2 !! name ∧
     asymmetric_matchers w1 !! name = asymmetric_matchers w2 !! name) →
  w1 = w2.
Proof.
  intros Hall. destruct w1, w2. cbn in Hall.
  f_equal; apply map_eq; intros name; by destruct (Hall name) as (?&?&?&?&?).
Qed.

(** X12. The merged mapping holds the user's entries in their order, each with
    its own matcher, and the built-in: in the place of a user entry of its
    name when there is one, at the end otherwise. *)
Theorem allMatchers_entries (matchers : list (string * MatcherFn)) :
  NoDup matchers.*1 →
  (allMatchers matchers).*1 =
    (if decide ("toHaveBeenCalledBefore" ∈ matchers.*1)
     then matchers.*1
     else (matchers.*1 ++ ["toHaveBeenCalledBefore"])%list) ∧
  (∀ name, name ≠ "toHaveBeenCalledBefore" →
     obj_get (allMatchers matchers) name = obj_get matchers name).
Proof.
  intros Hnd. unfold allMatchers.
  rewrite (spread_fresh [] matchers Hnd). cbn [app]. split.
  - case_decide as Hin.
    + by apply obj_set_present.
    + rewrite (obj_set_fresh _ _ _ Hin), fmap_app. done.
  - intros name Hne. by apply obj_get_set_ne.
Qed.

(** X13. Registering the same matcher map a second time changes nothing. *)
Theorem extend_idempotent (entry : ExpectStatic)
    (matchers : list (string * MatcherFn)) (chai_utils : ChaiUtils)
    (w : Registries) :
  extend entry matchers chai_utils (extend entry matchers chai_utils w)
    = extend entry matchers chai_utils w.
Proof.
  apply registries_eq. intros name. unfold extend, JestExtendPlugin.
  pose proof (allMatchers_NoDup matchers) as Hnd.
  destruct (foldl_install_lookup entry chai_utils (allMatchers matchers)
              (foldl (install entry chai_utils) w (allMatchers matchers))
              name Hnd) as (H1 & H2 & H3 & H4 & H5).
  destruct (foldl_install_lookup entry chai_utils (allMatchers matchers) w
              name Hnd) as (G1 & G2 & G3 & G4 & G5).
  rewrite H1, H2, H3, H4, H5, G1, G2, G3, G4, G5.
  unfold after_install. by destruct (obj_get (allMatchers matchers) name).
Qed.

(** X14. Of two registrations the later one wins on the process-wide registries:
    a name of its merged mapping ends up with its adapters, and every other
    name keeps what the earlier registration left. *)
Theorem extend_later_wins (entry1 entry2 : ExpectStatic)
    (matchers1 matchers2 : list (string * MatcherFn))
    (chai_utils1 chai_utils2 : ChaiUtils) (w : Registries) (name : string) :
  let w1 := extend entry1 matchers1 chai_utils1 w in
  let w2 := extend entry2 matchers2 chai_utils2 w1 in
  (∀ M, obj_get (allMatchers matchers2) name = Some M →
     jest_matchers w2 !! name
       = Some (wrapSoft chai_utils2 (expectWrapper entry2 M)) ∧
     assertion_prototype w2 !! name
       = Some (wrapSoft chai_utils2 (expectWrapper entry2 M)) ∧
     asymmetric_matchers w2 !! name
       = Some (new_CustomMatcher name M entry2 false)) ∧
  (obj_get (allMatchers matchers2) name = None →
     jest_matchers w2 !! name = jest_matchers w1 !! name ∧
     assertion_prototype w2 !! name = assertion_prototype w1 !! name ∧
     asymmetric_matchers w2 !! name = asymmetric_matchers w1 !! name).
Proof.
  cbn zeta. set (w1 := extend entry1 matchers1 chai_utils1 w).
  unfold extend, JestExtendPlugin.
  destruct (foldl_install_lookup entry2 chai_utils2 (allMatchers matchers2)
              w1 name (allMatchers_NoDup matchers2)) as (H1 & H2 & _ & _ & H5).
  rewrite H1, H2, H5. unfold after_install.
  split; [intros M -> | intros ->]; done.
Qed.




End Registration.

(** ** Concrete runs *)

Import Demo.

(** The call-order cases on concrete invocation orders. *)
Example called_before_cases :
  verdict_pass (toHaveBeenCalledBefore this0 (VMock [1; 5]) (VMock [3]) VUndefined)
    = Some true ∧
  verdict_pass (toHaveBeenCalledBefore this0 (VMock [2]) (VMock [1]) VUndefined)
    = Some false ∧
  verdict_pass (toHaveBeenCalledBefore this0 (VMock [1]) (VMock []) (VBool false))
    = Some true ∧
  verdict_pass (toHaveBeenCalledBefore this0 (VMock [1]) (VMock []) VUndefined)
    = Some false ∧
  verdict_pass (toHaveBeenCalledBefore this0 (VMock []) (VMock [1]) VUndefined)
    = Some false.
Proof. repeat split. Qed.

Lemma toHaveBeenCalledBefore_pass_witness :
  isJestMockOrSpy (VMock [1; 5]) = true ∧
  isJestMockOrSpy (VMock [3]) = true ∧
  ∃ r,
    toHaveBeenCalledBefore this0 (VMock [1; 5]) (VMock [3]) VUndefined
      = Normal (SyncResult r) ∧
    ([1; 5] = [] → pass r = false) ∧
    ([1; 5] ≠ [] → [3] = [] → pass r = negb (effective_flag VUndefined)) ∧
    ([1; 5] ≠ [] → [3] ≠ [] →
       ∃ m n, is_min m [1; 5] ∧ is_min n [3] ∧ (pass r = true ↔ (m < n)%Z)).
Proof.
  split; [reflexivity |]. split; [reflexivity |].
  apply (proj1 (toHaveBeenCalledBefore_pass (imports := demo_imports)
                  this0 [1; 5] [3] VUndefined eq_refl eq_refl)).
Defined.

Lemma toHaveBeenCalledBefore_invalid_side_witness :
  isJestMockOrSpy VObject = false ∧
  ∃ r, toHaveBeenCalledBefore this0 VObject (VMock [1]) VUndefined
         = Normal (SyncResult r) ∧
       pass r = false ∧
       includes "Received value must be a mock or spy function" (message r ())
         = true.
Proof.
  split; [reflexivity |].
  apply (proj1 (toHaveBeenCalledBefore_invalid_side this0 VObject (VMock [1])
                  VUndefined)).
  reflexivity.
Defined.

Lemma expectWrapper_sync_witness :
  always_pass (ms_state (getMatcherState (assertion_on VObject true) ()))
    VObject [] = Normal (SyncResult (verdict true)) ∧
  expectWrapper () always_pass (assertion_on VObject true) []
    = Throw (JestExtendError "custom" (VNumber 1) (VNumber 2)).
Proof.
  split; [reflexivity |].
  pose proof (expectWrapper_sync () always_pass (assertion_on VObject true) []
                (verdict true) eq_refl) as Hrule.
  cbn zeta in Hrule. destruct Hrule as (Hthrow & _).
  apply Hthrow. reflexivity.
Defined.

Lemma expectWrapper_async_witness :
  later_pass (ms_state (getMatcherState (assertion_on VObject true) ()))
    VObject [] = Normal (AsyncResult (Fulfilled (verdict true))) ∧
  ∃ d, expectWrapper () later_pass (assertion_on VObject true) []
         = Normal (Deferred d) ∧
       d = Rejected (JestExtendError "custom" (VNumber 1) (VNumber 2)).
Proof.
  split; [reflexivity |].
  destruct (expectWrapper_async () later_pass (assertion_on VObject true) []
              (Fulfilled (verdict true)) eq_refl) as (d & Hd & _ & _ & Hful).
  exists d. split; [exact Hd |].
  pose proof (Hful (verdict true) eq_refl) as Hsettled.
  cbn zeta in Hsettled. destruct Hsettled as (Hreject & _).
  apply Hreject. reflexivity.
Defined.

Lemma asymmetricMatch_negation_witness :
  asymmetricMatch (new_CustomMatcher "toBeAnything" always_pass () false [VNumber 7])
    VObject = Normal (VBool true) ∧
  asymmetricMatch (new_CustomMatcher "toBeAnything" always_pass () true [VNumber 7])
    VObject = Normal (VBool false).
Proof.
  pose proof (asymmetricMatch_negation (imports := demo_imports) "toBeAnything"
                always_pass () [VNumber 7] VObject true) as Hrule.
  cbn zeta in Hrule. destruct Hrule as (_ & _ & Hsame & _).
  apply (Hsame (verdict true) (verdict true)); reflexivity.
Defined.

(** C5, as stated, fails: a matcher that returns [pass: !this.isNot], run on
    contexts that take their negation state from the instance, passes for the
    plain instance and fails for the inverse one, so both instances return
    [true] and neither result is the negation of the other. *)
Lemma asymmetricMatch_negation_fails :
  let plain := new_CustomMatcher "toHold" pass_unless_negated () false [] in
  let inverted := new_CustomMatcher "toHold" pass_unless_negated () true [] in
  asymmetricMatch plain VObject = Normal (VBool true) ∧
  asymmetricMatch inverted VObject = Normal (VBool true) ∧
  ¬ (∃ b, asymmetricMatch plain VObject = Normal (VBool b) ∧
          asymmetricMatch inverted VObject = Normal (VBool (negb b))).
Proof.
  cbn zeta. split; [reflexivity |]. split; [reflexivity |].
  intros (b & Hplain & Hinverted).
  vm_compute in Hplain, Hinverted. destruct b; discriminate.
Qed.

Lemma asymmetricMatch_promise_witness :
  ∃ result,
    asymmetricMatch (new_CustomMatcher "toResolve" later_pass () true []) VObject
      = Normal result ∧
    result = VBool true.
Proof.
  destruct (asymmetricMatch_promise
              (new_CustomMatcher "toResolve" later_pass () true []) VObject
              (Fulfilled (verdict true)) eq_refl) as (result & Hres & _ & Hinv).
  exists result. split; [exact Hres |]. apply Hinv. reflexivity.
Defined.

Lemma toHaveBeenCalledBefore_message_wording_witness :
  ∃ msg,
    expectWrapper () toHaveBeenCalledBefore_matcher
      (assertion_on (VMock [1]) true) [VMock [2]]
      = Throw (JestExtendError msg VUndefined VUndefined) ∧
    includes
      "Expected first mock to not have been called before second mock, but it was."
      msg = true.
Proof.
  destruct (toHaveBeenCalledBefore_message_wording (imports := demo_imports) ()
              (assertion_on (VMock [1]) true) [1] [2] []
              eq_refl eq_refl eq_refl) as [_ Hthrow].
  destruct (Hthrow _ eq_refl) as (msg & Hmsg & _ & _ & Hneg & _).
  exists msg. split; [by rewrite <- Hmsg |]. apply Hneg. reflexivity.
Defined.

Lemma extend_registries_agree_witness :
  "toBeAnything" ∈ (allMatchers [("toBeAnything", always_pass)]).*1 ∧
  let w' := extend () [("toBeAnything", always_pass)] () empty_registries in
  is_Some (assertion_prototype w' !! "toBeAnything") ∧
  is_Some (jest_matchers w' !! "toBeAnything") ∧
  is_Some (asymmetric_matchers w' !! "toBeAnything").
Proof.
  assert (Hin : "toBeAnything" ∈ (allMatchers [("toBeAnything", always_pass)]).*1)
    by (vm_compute; left).
  split; [exact Hin |].
  apply (proj1 (extend_registries_agree () [("toBeAnything", always_pass)] ()
                  empty_registries "toBeAnything")).
  exact Hin.
Defined.

Lemma extend_installs_soft_wrapped_witness :
  obj_get (allMatchers [("toBeAnything", always_pass)]) "toBeAnything"
    = Some always_pass ∧
  let w' := extend () [("toBeAnything", always_pass)] () empty_registries in
  jest_matchers w' !! "toBeAnything"
    = Some (wrapSoft () (expectWrapper () always_pass)) ∧
  assertion_prototype w' !! "toBeAnything"
    = Some (wrapSoft () (expectWrapper () always_pass)).
Proof.
  split; [reflexivity |].
  apply (proj1 (extend_installs_soft_wrapped () [("toBeAnything", always_pass)]
                  () empty_registries "toBeAnything")).
  reflexivity.
Defined.

(** C3, as stated, fails: with a user entry named [toHaveBeenCalledBefore]
    that passes on everything, the registries do not hold the user's matcher
    under that name.  The installed fluent method rejects a subject that is
    not a mock, which the user's matcher would accept. *)
Lemma user_entry_does_not_shadow_builtin :
  obj_get squatting "toHaveBeenCalledBefore" = Some always_pass ∧
  ¬ user_entry_installed () () always_pass
      (extend () squatting () empty_registries).
Proof.
  split; [reflexivity |]. intros (Hfluent & _).
  destruct (foldl_install_lookup () () (allMatchers squatting) empty_registries
              "toHaveBeenCalledBefore" (allMatchers_NoDup squatting))
    as (Hinstalled & _).
  unfold extend, JestExtendPlugin in Hfluent. rewrite Hinstalled in Hfluent.
  unfold after_install in Hfluent. rewrite allMatchers_builtin in Hfluent.
  apply (f_equal (λ o : option FluentFn,
           match o with
           | Some f => f (assertion_on VObject false) []
           | None => Normal Void
           end)) in Hfluent.
  vm_compute in Hfluent. discriminate Hfluent.
Qed.

(** ** Concrete runs of the further properties *)

Lemma predicate_same_elements_witness :
  (∀ x : Z, x ∈ [5; 1; 5] ↔ x ∈ [1; 5]) ∧
  predicate [5; 1; 5] [3] true = predicate [1; 5] [3] true.
Proof.
  assert (Hsame : ∀ x : Z, x ∈ [5; 1; 5] ↔ x ∈ [1; 5]).
  { intros x. rewrite !elem_of_cons. intuition. }
  split; [exact Hsame |].
  apply (predicate_same_elements [5; 1; 5] [1; 5] [3] [3] true Hsame).
  reflexivity.
Defined.

Lemma predicate_asymmetric_witness :
  predicate [1; 5] [3] true = true ∧ predicate [3] [1; 5] false = false.
Proof.
  split; [reflexivity |].
  apply (predicate_asymmetric [1; 5] [3] true false). reflexivity.
Defined.

Lemma predicate_later_calls_witness :
  predicate ([2] ++ [7; 9]) ([4] ++ [8]) true = predicate [2] [4] true.
Proof.
  apply (predicate_later_calls [2] [7; 9] [4] [8] true).
  - discriminate.
  - discriminate.
  - intros y Hy. exists 2%Z. split; [left |].
    apply elem_of_cons in Hy as [-> | Hy]; [lia |].
    apply list_elem_of_singleton in Hy as ->. lia.
  - intros y Hy. exists 4%Z. split; [left |].
    apply list_elem_of_singleton in Hy as ->. lia.
Defined.

Lemma toHaveBeenCalledBefore_self_witness :
  isJestMockOrSpy (VMock [4; 6]) = true ∧
  verdict_pass (toHaveBeenCalledBefore this0 (VMock [4; 6]) (VMock [4; 6])
                  (VBool false)) = Some false.
Proof.
  split; [reflexivity |].
  apply (toHaveBeenCalledBefore_self (imports := demo_imports) this0 [4; 6]
           (VBool false) eq_refl).
Defined.

Lemma toHaveBeenCalledBefore_flag_irrelevant_witness :
  [3] ≠ [] ∧
  ∃ p, verdict_pass (toHaveBeenCalledBefore this0 (VMock [1]) (VMock [3])
                       VUndefined) = Some p ∧
       verdict_pass (toHaveBeenCalledBefore this0 (VMock [1]) (VMock [3])
                       (VBool false)) = Some p.
Proof.
  split; [discriminate |].
  apply (toHaveBeenCalledBefore_flag_irrelevant (imports := demo_imports)
           this0 this0 [1] [3] VUndefined (VBool false) eq_refl eq_refl).
  discriminate.
Defined.

Lemma fluent_call_order_exactly_one_witness :
  expectWrapper () toHaveBeenCalledBefore_matcher
    (assertion_on (VMock [1]) false) [VMock [2]] = Normal Void ∧
  ∃ msg, expectWrapper () toHaveBeenCalledBefore_matcher
           (assertion_on (VMock [1]) true) [VMock [2]]
         = Throw (JestExtendError msg VUndefined VUndefined).
Proof.
  destruct (fluent_call_order_exactly_one (imports := demo_imports) ()
              (assertion_on (VMock [1]) false) (assertion_on (VMock [1]) true)
              [1] [2] [] eq_refl eq_refl eq_refl eq_refl eq_refl eq_refl)
    as [Hpass | [Hvoid _]].
  - exact Hpass.
  - vm_compute in Hvoid. discriminate Hvoid.
Defined.

Lemma fluent_call_order_invalid_subject_witness :
  isJestMockOrSpy (_obj (assertion_on VObject true)) = false ∧
  expectWrapper () toHaveBeenCalledBefore_matcher (assertion_on VObject true)
    [VMock [2]] = Normal Void.
Proof.
  split; [reflexivity |].
  apply (proj1 (fluent_call_order_invalid_subject (imports := demo_imports) ()
                  (assertion_on VObject true) [VMock [2]] eq_refl)).
  reflexivity.
Defined.

Lemma expectWrapper_isNot_consistent_witness :
  always_pass (ms_state (getMatcherState (assertion_on VObject false) ()))
    VObject [] = Normal (SyncResult (verdict true)) ∧
  expectWrapper () always_pass (assertion_on VObject false) [] = Normal Void.
Proof.
  split; [reflexivity |].
  apply (proj1 (expectWrapper_isNot_consistent (imports := demo_imports) ()
                  always_pass (assertion_on VObject false) [] (verdict true)
                  eq_refl)).
  reflexivity.
Defined.

Lemma allMatchers_entries_witness :
  NoDup [("toBeAnything", always_pass); ("toResolve", later_pass)].*1 ∧
  (allMatchers [("toBeAnything", always_pass); ("toResolve", later_pass)]).*1
    = ["toBeAnything"; "toResolve"; "toHaveBeenCalledBefore"].
Proof.
  assert (Hnd : NoDup
            [("toBeAnything", always_pass); ("toResolve", later_pass)].*1).
  { cbn. apply NoDup_cons. split.
    - intros Hin. apply list_elem_of_singleton in Hin. discriminate Hin.
    - apply NoDup_singleton. }
  split; [exact Hnd |].
  apply (proj1 (allMatchers_entries (imports := demo_imports) _ Hnd)).
Defined.

Lemma extend_later_wins_witness :
  obj_get (allMatchers [("toMatch", later_pass)]) "toMatch" = Some later_pass ∧
  jest_matchers
    (extend () [("toMatch", later_pass)] ()
       (extend () [("toMatch", always_pass)] () empty_registries))
    !! "toMatch"
  = Some (wrapSoft () (expectWrapper () later_pass)).
Proof.
  split; [reflexivity |].
  apply (proj1 (extend_later_wins (imports := demo_imports) () ()
                  [("toMatch", always_pass)] [("toMatch", later_pass)] () ()
                  empty_registries "toMatch") later_pass eq_refl).
Defined.



